(** * Perseus / test-cpp-project: the SBOM test application

    A shallow embedding of [data_processor.cpp], [network_client.cpp] and
    [main.cpp].  The program is a thin layer over SQLite, zlib, libcurl,
    OpenSSL, Boost.Filesystem and fmt; the libraries are not part of the
    repository, so they appear here as interfaces (type classes) whose
    results the program reacts to.  Every call that touches the outside
    world is recorded in a trace of events, and every method threads the
    object it is called on ([this]) and that trace explicitly. *)

From Stdlib Require Import ZArith NArith Lia List String Ascii.
From Stdlib.Strings Require Import Byte.
From stdpp Require Import base decidable numbers list gmap strings pretty.

Local Open Scope string_scope.
Local Open Scope N_scope.
Local Open Scope list_scope.

(** ** Native handles, library result codes *)

(** A raw pointer ([sqlite3*], [CURL*]); address 0 is [nullptr]. *)
Definition ptr := N.
Definition nullptr : ptr := 0.

(** [if (p)] on a pointer. *)
Definition is_set (p : ptr) : bool := negb (p =? nullptr).

Definition Z_OK : Z := 0%Z.
Definition Z_MEM_ERROR : Z := (-4)%Z.
Definition Z_BUF_ERROR : Z := (-5)%Z.
Definition SQLITE_OK : Z := 0%Z.
Definition SQLITE_NOMEM : Z := 7%Z.
Definition SQLITE_CANTOPEN : Z := 14%Z.
Definition CURL_GLOBAL_DEFAULT : N := 3.

(** ** Observable events *)

Inductive event : Type :=
  | Stdout (s : string)
  | SqliteOpen (filename : string) (rc : Z) (db : ptr)
  | SqliteErrmsg (db : ptr)
  | SqliteClose (db : ptr)
  | CurlGlobalInit (flags : N)
  | CurlGlobalCleanup
  | CurlEasyInit (h : ptr)
  | CurlEasyCleanup (h : ptr)
  | SslLoadErrorStrings
  | SslLibraryInit
  | BoostCurrentPath
  | ArgvRead (i : nat)
  | Getenv (name : string).

Definition trace := list event.

(** The two ways a program gets at what it was started with: an element
    of [argv], and [std::getenv]. *)
Definition reads_process_input (e : event) : bool :=
  match e with
  | ArgvRead _ | Getenv _ => true
  | _ => false
  end.

(** What the process wrote to [std::cout], in order. *)
Definition stdout_of (t : trace) : list string :=
  omap (fun e => match e with Stdout s => Some s | _ => None end) t.

(** ** Outcomes and the effect monad *)

(** A C++ call either returns or leaves by an exception. *)
Inductive outcome (A : Type) : Type :=
  | Returned (a : A)
  | Threw (what : string).
Arguments Returned {A} a.
Arguments Threw {A} what.

(** A computation reads and extends the trace.  A method takes the object
    it is called on as an argument and, being non-const, returns the object
    as it leaves it. *)
Definition M (A : Type) : Type := trace -> outcome A * trace.

Definition ret {A} (a : A) : M A := fun t => (Returned a, t).

Definition bind {A B} (m : M A) (k : A -> M B) : M B :=
  fun t => match m t with
           | (Returned a, t') => k a t'
           | (Threw e, t') => (Threw e, t')
           end.

Definition emit (e : event) : M unit := fun t => (Returned tt, t ++ [e]).

Definition history : M trace := fun t => (Returned t, t).

Definition lift_outcome {A} (o : outcome A) : M A := fun t => (o, t).

Declare Scope cpp_scope.
Delimit Scope cpp_scope with cpp.
Notation "x <- m ;; k" := (bind m (fun x => k))
  (at level 100, m at next level, right associativity) : cpp_scope.
Notation "m ;;; k" := (bind m (fun _ => k))
  (at level 100, right associativity) : cpp_scope.
Local Open Scope cpp_scope.

(** ** fmt::format, for replacement fields of the form [{}] *)

Inductive fmt_arg : Type :=
  | ArgStr (s : string)
  | ArgNum (n : N).

Definition fmt_show (a : fmt_arg) : string :=
  match a with
  | ArgStr s => s
  | ArgNum n => pretty n
  end.

(** Scans the pattern.  [{}] consumes the next argument, [{{] and [}}]
    stand for one brace; a field with no argument left and a brace that is
    neither doubled nor part of [{}] are fmt's [format_error]. *)
Fixpoint fmt_format (pat : string) (args : list fmt_arg) : outcome string :=
  match pat with
  | EmptyString => Returned EmptyString
  | String "{" (String "}" rest) =>
      match args with
      | [] => Threw "argument not found"
      | a :: args' =>
          match fmt_format rest args' with
          | Returned s => Returned (fmt_show a +:+ s)
          | Threw e => Threw e
          end
      end
  | String "{" (String "{" rest) =>
      match fmt_format rest args with
      | Returned s => Returned (String "{" s)
      | Threw e => Threw e
      end
  | String "}" (String "}" rest) =>
      match fmt_format rest args with
      | Returned s => Returned (String "}" s)
      | Threw e => Threw e
      end
  | String "{" _ => Threw "invalid format string"
  | String "}" _ => Threw "unmatched '}' in format string"
  | String c rest =>
      match fmt_format rest args with
      | Returned s => Returned (String c s)
      | Threw e => Threw e
      end
  end.

(** The line feed written as a backslash-n escape in the C++ literals. *)
Definition LF : string := String "010" EmptyString.

(** ** The libraries the program links against *)

(** zlib.  [compress cap src] stands for
    [compress(dest, &destLen, source, sourceLen)] entered with
    [*destLen = cap]: it gives the result code, the bytes it stored from
    [dest] on, and the value it leaves in [*destLen]. *)
Class Zlib : Type := {
  compressBound : N -> N;
  compress : N -> list byte -> Z * list byte * N
}.

(** SQLite.  [sqlite3_open] gives the result code and the pointer it
    stores through [ppDb]; both may depend on what happened before. *)
Class Sqlite : Type := {
  sqlite3_open : trace -> string -> Z * ptr;
  sqlite3_errmsg : trace -> ptr -> string
}.

(** libcurl: [curl_easy_init] gives a handle or [nullptr]. *)
Class Curl : Type := {
  curl_easy_init : trace -> ptr
}.

(** Boost.Filesystem: [current_path()] returns the directory or throws
    [filesystem_error]. *)
Class BoostFilesystem : Type := {
  current_path : trace -> outcome string
}.

(** ** std::vector<uint8_t> *)

(** [v.resize(n)]: truncates, or pads with value-initialised bytes. *)
Definition resize (n : nat) (v : list byte) : list byte :=
  take n v ++ replicate (n - length v) x00.

(** A C function given [v.data()] stores bytes from the front of the
    buffer; the size of the vector is not its to change. *)
Definition store_at_front (w v : list byte) : list byte :=
  take (length v) (w ++ drop (length w) v).

(** ** data_processor.{h,cpp} *)

Module DataProcessor.

Record t : Type := Build { db_ : ptr }.

Section WithLibraries.
Context `{Zlib} `{Sqlite}.

(** [DataProcessor::DataProcessor()] *)
Definition ctor : M t :=
  h <- history;;
  let '(rc, db) := sqlite3_open h ":memory:" in
  emit (SqliteOpen ":memory:" rc db);;;
  let this := {| db_ := db |} in
  (if negb (rc =? 0)%Z then
     h' <- history;;
     emit (SqliteErrmsg (db_ this));;;
     s <- lift_outcome
            (fmt_format ("Can't open database: {}" +:+ LF)
                        [ArgStr (sqlite3_errmsg h' (db_ this))]);;
     emit (Stdout s)
   else
     emit (Stdout ("SQLite database opened successfully" +:+ LF)));;;
  ret this.

(** [DataProcessor::~DataProcessor()] *)
Definition dtor (this : t) : M unit :=
  if is_set (db_ this) then emit (SqliteClose (db_ this)) else ret tt.

(** [DataProcessor::compress_data] *)
Definition compress_data (this : t) (data : string)
  : M (list byte * t) :=
  let compressed : list byte := [] in
  let compressed_size := compressBound (N.of_nat (String.length data)) in
  let compressed := resize (N.to_nat compressed_size) compressed in
  let '(result, stored, compressed_size) :=
    compress compressed_size (list_byte_of_string data) in
  let compressed := store_at_front stored compressed in
  let compressed :=
    if (result =? Z_OK)%Z
    then resize (N.to_nat compressed_size) compressed
    else compressed in
  ret (compressed, this).

(** [DataProcessor::process_data] *)
Definition process_data (this : t) (data : string) : M t :=
  s <- lift_outcome
         (fmt_format ("Processing data: {}" +:+ LF) [ArgStr data]);;
  emit (Stdout s);;;
  r <- compress_data this data;;
  let '(compressed, this) := r in
  s <- lift_outcome
         (fmt_format ("Compressed {} bytes to {} bytes" +:+ LF)
                     [ArgNum (N.of_nat (String.length data));
                      ArgNum (N.of_nat (length compressed))]);;
  emit (Stdout s);;;
  ret this.

End WithLibraries.

End DataProcessor.

(** ** network_client.{h,cpp} *)

Module NetworkClient.

Record t : Type := Build { curl_handle_ : ptr }.

Section WithLibraries.
Context `{Curl}.

(** [NetworkClient::NetworkClient()] *)
Definition ctor : M t := ret {| curl_handle_ := nullptr |}.

(** [NetworkClient::~NetworkClient()] *)
Definition dtor (this : t) : M unit :=
  if is_set (curl_handle_ this)
  then emit (CurlEasyCleanup (curl_handle_ this))
  else ret tt.

(** [NetworkClient::initialize] *)
Definition initialize (this : t) : M t :=
  h <- history;;
  let this := {| curl_handle_ := curl_easy_init h |} in
  emit (CurlEasyInit (curl_handle_ this));;;
  (if is_set (curl_handle_ this) then
     s <- lift_outcome
            (fmt_format ("CURL initialized successfully" +:+ LF) []);;
     emit (Stdout s)
   else ret tt);;;
  ret this.

(** [NetworkClient::get] *)
Definition get (this : t) (url : string) : M (string * t) :=
  s <- lift_outcome (fmt_format "Response from: {}" [ArgStr url]);;
  ret (s, this).

End WithLibraries.

End NetworkClient.

(** ** main.cpp *)

Section Main.
Context `{Zlib} `{Sqlite} `{Curl} `{BoostFilesystem}.

(** [int main()].  The two objects are destroyed when [main] returns,
    in reverse order of construction, after [curl_global_cleanup]. *)
Definition main : M Z :=
  s <- lift_outcome
         (fmt_format ("SBOM Test Application v{}.{}.{}" +:+ LF)
                     [ArgNum 1; ArgNum 0; ArgNum 0]);;
  emit (Stdout s);;;
  emit (CurlGlobalInit CURL_GLOBAL_DEFAULT);;;
  emit SslLoadErrorStrings;;;
  emit SslLibraryInit;;;
  h <- history;;
  emit BoostCurrentPath;;;
  current_path_ <- lift_outcome (current_path h);;
  emit (Stdout ("Current directory: " +:+ current_path_ +:+ LF));;;
  client <- NetworkClient.ctor;;
  client <- NetworkClient.initialize client;;
  processor <- DataProcessor.ctor;;
  processor <- DataProcessor.process_data processor "sample data";;
  emit CurlGlobalCleanup;;;
  DataProcessor.dtor processor;;;
  NetworkClient.dtor client;;;
  ret 0%Z.

End Main.

(** ** Reading traces *)

(** The events a computation added to the trace [t0] it started from. *)
Definition appended (t0 t1 : trace) : trace := drop (length t0) t1.

Definition sqlite_closes (t : trace) : list ptr :=
  omap (fun e => match e with SqliteClose db => Some db | _ => None end) t.

Definition curl_cleanups (t : trace) : list ptr :=
  omap (fun e => match e with CurlEasyCleanup h => Some h | _ => None end) t.

(** [s] occurs in [text] as a contiguous run of characters. *)
Definition contains (text s : string) : Prop :=
  exists before after, text = before +:+ s +:+ after.

(** The same, decided by trying every position. *)
Fixpoint containsb (text s : string) : bool :=
  String.prefix s text ||
  match text with
  | EmptyString => false
  | String _ text' => containsb text' s
  end.

(** ** Auditing the native handles

    The handles that are open at some point of a trace.  Releasing a
    handle that is not open (never obtained, null, or released before) is
    what the libraries leave undefined. *)

Record resources : Type := {
  open_dbs : gset ptr;
  open_curls : gset ptr
}.

Definition no_resources : resources :=
  {| open_dbs := ∅; open_curls := ∅ |}.

Definition audit_event (r : resources) (e : event) : option resources :=
  match e with
  | SqliteOpen _ _ db =>
      Some (if is_set db
            then {| open_dbs := {[db]} ∪ open_dbs r;
                    open_curls := open_curls r |}
            else r)
  | SqliteClose db =>
      if decide (db ∈ open_dbs r)
      then Some {| open_dbs := open_dbs r ∖ {[db]};
                   open_curls := open_curls r |}
      else None
  | CurlEasyInit h =>
      Some (if is_set h
            then {| open_dbs := open_dbs r;
                    open_curls := {[h]} ∪ open_curls r |}
            else r)
  | CurlEasyCleanup h =>
      if decide (h ∈ open_curls r)
      then Some {| open_dbs := open_dbs r;
                   open_curls := open_curls r ∖ {[h]} |}
      else None
  | _ => Some r
  end.

Fixpoint audit (r : resources) (t : trace) : option resources :=
  match t with
  | [] => Some r
  | e :: t' =>
      match audit_event r e with
      | Some r' => audit r' t'
      | None => None
      end
  end.

(** ** Sequences of calls on one object *)

Inductive client_call : Type :=
  | CallInitialize
  | CallGet (url : string).

Section Scripts.
Context `{Zlib} `{Sqlite} `{Curl}.

Fixpoint processor_calls (this : DataProcessor.t) (inputs : list string)
  : M DataProcessor.t :=
  match inputs with
  | [] => ret this
  | data :: inputs' =>
      this <- DataProcessor.process_data this data;;
      processor_calls this inputs'
  end.

(** Construction, any number of [process_data] calls, destruction. *)
Definition processor_lifetime (inputs : list string) : M unit :=
  this <- DataProcessor.ctor;;
  this <- processor_calls this inputs;;
  DataProcessor.dtor this.

Fixpoint client_calls (this : NetworkClient.t) (calls : list client_call)
  : M NetworkClient.t :=
  match calls with
  | [] => ret this
  | CallInitialize :: calls' =>
      this <- NetworkClient.initialize this;;
      client_calls this calls'
  | CallGet url :: calls' =>
      r <- NetworkClient.get this url;;
      client_calls (snd r) calls'
  end.

(** Construction, any calls in any order, destruction. *)
Definition client_lifetime (calls : list client_call) : M unit :=
  this <- NetworkClient.ctor;;
  this <- client_calls this calls;;
  NetworkClient.dtor this.

End Scripts.

(** ** Library behaviours to run the program against *)

Module Doubles.

Definition byte_of_N (n : N) : byte :=
  match Byte.of_N (n mod 256) with
  | Some b => b
  | None => x00
  end.

(** zlib's own bound: [n + (n >> 12) + (n >> 14) + (n >> 25) + 13]. *)
Definition zlib_compressBound (n : N) : N :=
  n + N.shiftr n 12 + N.shiftr n 14 + N.shiftr n 25 + 13.

(** Adler-32 of a byte sequence. *)
Definition adler32 (bs : list byte) : N :=
  let '(a, b) :=
    fold_left (fun ab x =>
                 let a' := (fst ab + Byte.to_N x) mod 65521 in
                 (a', (snd ab + a') mod 65521))
              bs (1, 0) in
  b * 65536 + a.

Definition le16 (n : N) : list byte :=
  [byte_of_N n; byte_of_N (n / 256)].

Definition be32 (n : N) : list byte :=
  [byte_of_N (n / 16777216); byte_of_N (n / 65536);
   byte_of_N (n / 256); byte_of_N n].

(** Deflate with stored blocks only, at most [block] bytes in each. *)
Fixpoint stored_blocks (block : nat) (fuel : nat) (bs : list byte)
  : list byte :=
  match fuel with
  | O => []
  | S fuel' =>
      let chunk := take block bs in
      let rest := drop block bs in
      let len := N.of_nat (length chunk) in
      match rest with
      | [] => [x01] ++ le16 len ++ le16 (65535 - len) ++ chunk
      | _ => [x00] ++ le16 len ++ le16 (65535 - len) ++ chunk
               ++ stored_blocks block fuel' rest
      end
  end.

Definition stored_block_size : nat := N.to_nat 65535.

(** A zlib stream: header [78 01], the blocks, the checksum. *)
Definition zlib_stored (bs : list byte) : list byte :=
  [x78; x01] ++ stored_blocks stored_block_size (S (length bs)) bs
    ++ be32 (adler32 bs).

(** A [compress] that never runs out of memory: [Z_OK] when the stream
    fits in the buffer, [Z_BUF_ERROR] with a full buffer when not. *)
Definition stored_compress (cap : N) (src : list byte) : Z * list byte * N :=
  let out := zlib_stored src in
  if N.of_nat (length out) <=? cap
  then (Z_OK, out, N.of_nat (length out))
  else (Z_BUF_ERROR, take (N.to_nat cap) out, cap).

Definition zlib_stored_only : Zlib :=
  {| compressBound := zlib_compressBound; compress := stored_compress |}.

(** A [compress] whose [deflateInit] cannot allocate: nothing is stored
    and [*destLen] is left at 0. *)
Definition zlib_out_of_memory : Zlib :=
  {| compressBound := zlib_compressBound;
     compress := fun _ _ => (Z_MEM_ERROR, [], 0) |}.

Definition a_db : ptr := 20480.
Definition a_curl : ptr := 28672.

Definition sqlite_opens : Sqlite :=
  {| sqlite3_open := fun _ _ => (SQLITE_OK, a_db);
     sqlite3_errmsg := fun _ _ => "not an error" |}.

(** The open fails and SQLite still hands out a connection object, as
    it does for every failure but running out of memory. *)
Definition sqlite_cannot_open : Sqlite :=
  {| sqlite3_open := fun _ _ => (SQLITE_CANTOPEN, a_db);
     sqlite3_errmsg := fun _ _ => "unable to open database file" |}.

Definition sqlite_out_of_memory : Sqlite :=
  {| sqlite3_open := fun _ _ => (SQLITE_NOMEM, nullptr);
     sqlite3_errmsg := fun _ _ => "out of memory" |}.

Definition curl_inits : Curl := {| curl_easy_init := fun _ => a_curl |}.
Definition curl_fails : Curl := {| curl_easy_init := fun _ => nullptr |}.

Definition cwd_known : BoostFilesystem :=
  {| current_path := fun _ => Returned "/tmp" |}.
Definition cwd_gone : BoostFilesystem :=
  {| current_path := fun _ =>
       Threw "boost::filesystem::current_path: No such file or directory" |}.

End Doubles.

(** ** Descriptions used in the statements *)

(** The buffer [compress_data] builds, as a function of what [compress]
    answers for the input. *)
Definition compressed_buffer `{Zlib} (data : string) : list byte :=
  let bound := compressBound (N.of_nat (String.length data)) in
  let zeroed := replicate (N.to_nat bound) x00 in
  match compress bound (list_byte_of_string data) with
  | (result, stored, n) =>
      if (result =? Z_OK)%Z
      then resize (N.to_nat n) (store_at_front stored zeroed)
      else store_at_front stored zeroed
  end.

(** What the constructor logs after [sqlite3_open] answered [rc], [db]. *)
Definition open_report `{Sqlite} (h : trace) (rc : Z) (db : ptr) : trace :=
  if negb (rc =? 0)%Z
  then [SqliteErrmsg db;
        Stdout ("Can't open database: "
                  +:+ sqlite3_errmsg (h ++ [SqliteOpen ":memory:" rc db]) db
                  +:+ LF)]
  else [Stdout ("SQLite database opened successfully" +:+ LF)].

(** Events that neither obtain nor release a handle. *)
Definition is_neutral (e : event) : bool :=
  match e with
  | Stdout _ | SqliteErrmsg _ => true
  | _ => false
  end.

(** What [main] does before it asks for the current directory. *)
Definition startup : trace :=
  [Stdout ("SBOM Test Application v1.0.0" +:+ LF);
   CurlGlobalInit CURL_GLOBAL_DEFAULT;
   SslLoadErrorStrings;
   SslLibraryInit].

(** The two lines one [process_data] call writes. *)
Definition process_lines `{Zlib} (data : string) : trace :=
  [Stdout ("Processing data: " +:+ data +:+ LF);
   Stdout ("Compressed "
             +:+ pretty (N.of_nat (String.length data))
             +:+ " bytes to "
             +:+ pretty (N.of_nat (length (compressed_buffer data)))
             +:+ " bytes" +:+ LF)].

Definition sqlite_errmsgs (t : trace) : list ptr :=
  omap (fun e => match e with SqliteErrmsg db => Some db | _ => None end) t.

(** What [curl_easy_init] answered, call by call. *)
Definition curl_inits (t : trace) : list ptr :=
  omap (fun e => match e with CurlEasyInit h => Some h | _ => None end) t.

(** The last answer of [curl_easy_init] in [t], or [p] if it was not
    called. *)
Definition handle_after (p : ptr) (t : trace) : ptr :=
  default p (last (curl_inits t)).

(** The handles [curl_easy_init] handed out in [t]. *)
Definition curl_obtained (t : trace) : gset ptr :=
  list_to_set (filter (fun h => h <> nullptr) (curl_inits t)).

(** What [initialize] adds to the trace [h]. *)
Definition initialize_events `{Curl} (h : trace) : trace :=
  CurlEasyInit (curl_easy_init h)
    :: (if is_set (curl_easy_init h)
        then [Stdout ("CURL initialized successfully" +:+ LF)]
        else []).

(** What [main] adds to the trace [h] once [current_path] has answered
    [dir]: the start-up, the client, the processor and its one call, and
    the teardown. *)
Definition main_events `{Zlib} `{Sqlite} `{Curl} (h : trace) (dir : string)
  : trace :=
  let greeting :=
    startup ++ [BoostCurrentPath;
                Stdout ("Current directory: " +:+ dir +:+ LF)] in
  let h1 := h ++ greeting in
  let client := curl_easy_init h1 in
  let h2 := h1 ++ initialize_events h1 in
  let rc := (sqlite3_open h2 ":memory:").1 in
  let db := (sqlite3_open h2 ":memory:").2 in
  greeting
    ++ initialize_events h1
    ++ SqliteOpen ":memory:" rc db :: open_report h2 rc db
    ++ process_lines "sample data"
    ++ [CurlGlobalCleanup]
    ++ (if is_set db then [SqliteClose db] else [])
    ++ (if is_set client then [CurlEasyCleanup client] else []).

(** How often a sequence of calls asks for [initialize]. *)
Fixpoint count_initialize (calls : list client_call) : nat :=
  match calls with
  | [] => 0
  | CallInitialize :: calls' => S (count_initialize calls')
  | CallGet _ :: calls' => count_initialize calls'
  end.

(** A libcurl that hands out a different handle at every call. *)
Definition curl_fresh : Curl :=
  {| curl_easy_init := fun h => Doubles.a_curl + N.of_nat (length h) |}.

(** * Properties *)

(** ** Vectors and strings *)

Lemma length_resize (n : nat) (v : list byte) : length (resize n v) = n.
Proof.
  unfold resize.
  rewrite length_app, length_take, length_replicate.
  lia.
Qed.

Lemma length_store_at_front (w v : list byte) :
  length (store_at_front w v) = length v.
Proof.
  unfold store_at_front.
  rewrite length_take, length_app, length_drop.
  lia.
Qed.

(** [data.length()] is the number of bytes behind [data.c_str()]. *)
Lemma length_list_byte_of_string (s : string) :
  length (list_byte_of_string s) = String.length s.
Proof.
  induction s as [|c s IH]; [reflexivity|].
  change (list_byte_of_string (String c s))
    with (byte_of_ascii c :: list_byte_of_string s).
  simpl. now rewrite IH.
Qed.

Lemma append_empty_r (s : string) : s +:+ EmptyString = s.
Proof.
  induction s as [|c s IH]; [reflexivity|].
  change (String c (s +:+ EmptyString) = String c s).
  now rewrite IH.
Qed.

Lemma contains_suffix (before s : string) : contains (before +:+ s) s.
Proof.
  exists before, EmptyString.
  now rewrite append_empty_r.
Qed.

Lemma prefix_refl (s : string) : String.prefix s s = true.
Proof.
  induction s as [|c s IH]; [reflexivity|].
  simpl. now destruct (ascii_dec c c).
Qed.

Lemma containsb_unfold (text s : string) :
  containsb text s
  = String.prefix s text
    || match text with
       | EmptyString => false
       | String _ text' => containsb text' s
       end.
Proof. now destruct text. Qed.

Lemma containsb_suffix (before s : string) :
  containsb (before +:+ s) s = true.
Proof.
  induction before as [|c before IH].
  - change (EmptyString +:+ s) with s.
    now rewrite containsb_unfold, prefix_refl.
  - change (String c before +:+ s) with (String c (before +:+ s)).
    rewrite containsb_unfold, IH. apply orb_true_r.
Qed.

(** ** The compressed buffer *)

Lemma resize_nil (n : nat) : resize n [] = replicate n x00.
Proof. unfold resize. now rewrite take_nil, Nat.sub_0_r. Qed.

Lemma compress_data_run `{Zlib} (this : DataProcessor.t) (data : string)
    (h : trace) :
  DataProcessor.compress_data this data h
  = (Returned (compressed_buffer data, this), h).
Proof.
  unfold DataProcessor.compress_data, compressed_buffer.
  cbv zeta. rewrite resize_nil.
  destruct (compress _ _) as [[result stored] n].
  reflexivity.
Qed.

Lemma length_compressed_buffer `{Zlib} (data : string) :
  let bound := compressBound (N.of_nat (String.length data)) in
  N.of_nat (length (compressed_buffer data))
  = match compress bound (list_byte_of_string data) with
    | (result, _, n) => if (result =? Z_OK)%Z then n else bound
    end.
Proof.
  unfold compressed_buffer. cbv zeta.
  destruct (compress _ _) as [[result stored] n].
  destruct (result =? Z_OK)%Z.
  - now rewrite length_resize, N2Nat.id.
  - now rewrite length_store_at_front, length_replicate, N2Nat.id.
Qed.



(** C2: when [compress] answers anything but [Z_OK], [compress_data] still
    returns normally and logs nothing, and the buffer it returns is the
    zero-filled buffer of exactly [compressBound] of the input length with
    the stored bytes at its front: it is not cut to the size [compress]
    reported. *)
Theorem compress_data_failure_is_silent `{Zlib} (this : DataProcessor.t)
    (data : string) (h : trace) (result : Z) (stored : list byte) (n : N) :
  compress (compressBound (N.of_nat (String.length data)))
           (list_byte_of_string data) = (result, stored, n) ->
  result <> Z_OK ->
  exists buf,
    DataProcessor.compress_data this data h = (Returned (buf, this), h)
    /\ N.of_nat (length buf) = compressBound (N.of_nat (String.length data))
    /\ buf = store_at_front stored
               (replicate
                  (N.to_nat (compressBound (N.of_nat (String.length data))))
                  x00).
Proof.
  intros E Hko.
  exists (compressed_buffer data). split; [apply compress_data_run|].
  rewrite length_compressed_buffer.
  unfold compressed_buffer. cbv zeta. rewrite E.
  destruct (Z.eqb_spec result Z_OK) as [Hok|_]; [contradiction|].
  split; reflexivity.
Qed.

(** ** A [compress] that honours zlib's contract

    The stored-only encoder produces genuine zlib streams that fit the
    buffer [compress_data] provides, so it keeps the size contract and
    answers [Z_OK] there. *)

Lemma length_stored_blocks (block fuel : nat) :
  (0 < block)%nat ->
  forall (k : nat) (bs : list byte),
    (1 <= k)%nat -> (k <= fuel)%nat -> (length bs <= k * block)%nat ->
    (length (Doubles.stored_blocks block fuel bs) <= length bs + 5 * k)%nat.
Proof.
  intros Hblock.
  induction fuel as [|fuel IH]; intros k bs Hk Hfuel Hlen; [lia|].
  simpl.
  pose proof (length_take bs block) as Htake.
  pose proof (length_drop bs block) as Hdrop.
  destruct (drop block bs) as [|b rest] eqn:D.
  - simpl. lia.
  - simpl in *.
    rewrite length_app.
    assert (Hrest : (length (b :: rest) <= (k - 1) * block)%nat)
      by (simpl; nia).
    assert (Hk' : (1 <= k - 1)%nat) by nia.
    specialize (IH (k - 1)%nat (b :: rest) Hk' ltac:(lia) Hrest).
    simpl in IH. lia.
Qed.

Lemma stored_block_size_N : N.of_nat Doubles.stored_block_size = 65535.
Proof. unfold Doubles.stored_block_size. apply N2Nat.id. Qed.

Lemma length_zlib_stored (bs : list byte) :
  N.of_nat (length (Doubles.zlib_stored bs))
  <= Doubles.zlib_compressBound (N.of_nat (length bs)).
Proof.
  pose proof stored_block_size_N as HB.
  assert (Hpos : (0 < Doubles.stored_block_size)%nat) by lia.
  set (block := Doubles.stored_block_size) in *.
  set (k := (length bs / block + 1)%nat).
  assert (Hlen : (length bs <= k * block)%nat).
  { pose proof (Nat.div_mod_eq (length bs) block).
    pose proof (Nat.mod_upper_bound (length bs) block ltac:(lia)).
    unfold k. nia. }
  assert (Hfuel : (k <= S (length bs))%nat).
  { pose proof (Nat.Div0.div_le_upper_bound (length bs) block (length bs)
                  ltac:(nia)).
    unfold k. lia. }
  pose proof (length_stored_blocks block (S (length bs)) Hpos k bs
                ltac:(unfold k; lia) Hfuel Hlen) as Hblocks.
  unfold Doubles.zlib_stored. fold block.
  rewrite !length_app.
  change (length [x78; x01]) with 2%nat.
  change (length (Doubles.be32 (Doubles.adler32 bs))) with 4%nat.
  assert (Hk : N.of_nat k = N.of_nat (length bs) / 65535 + 1).
  { unfold k. rewrite Nat2N.inj_add, Nat2N.inj_div, HB. reflexivity. }
  unfold Doubles.zlib_compressBound.
  rewrite !N.shiftr_div_pow2.
  change (2 ^ 12) with 4096.
  change (2 ^ 14) with 16384.
  change (2 ^ 25) with 33554432.
  clear Hlen Hfuel. clearbody k.
  generalize dependent (length (Doubles.stored_blocks block (S (length bs)) bs)).
  generalize dependent (length bs).
  clear. intros len Hk out Hout.
  zify. Z.div_mod_to_equations. lia.
Qed.

Lemma stored_compress_fits (cap : N) (src : list byte) (result : Z)
    (stored : list byte) (n : N) :
  Doubles.stored_compress cap src = (result, stored, n) ->
  result = Z_OK -> n <= cap.
Proof.
  unfold Doubles.stored_compress. cbv zeta.
  destruct (N.leb_spec (N.of_nat (length (Doubles.zlib_stored src))) cap)
    as [Hle|Hgt];
    intros [= <- <- <-] Hresult; [exact Hle|discriminate Hresult].
Qed.

Lemma stored_compress_has_room (cap : N) (src : list byte) :
  Doubles.zlib_compressBound (N.of_nat (length src)) <= cap ->
  (Doubles.stored_compress cap src).1.1 = Z_OK.
Proof.
  intros Hcap.
  pose proof (length_zlib_stored src).
  unfold Doubles.stored_compress. cbv zeta.
  destruct (N.leb_spec (N.of_nat (length (Doubles.zlib_stored src))) cap);
    [reflexivity|lia].
Qed.



(** A [compress] that cannot allocate, on a two-byte input: the buffer
    comes back with all 15 bytes of the bound, though 0 were written. *)
Lemma compress_data_failure_is_silent_witness :
  exists buf,
    @DataProcessor.compress_data Doubles.zlib_out_of_memory
      {| DataProcessor.db_ := Doubles.a_db |} "ab" []
    = (Returned (buf, {| DataProcessor.db_ := Doubles.a_db |}), [])
    /\ N.of_nat (length buf) = 15
    /\ buf = store_at_front [] (replicate 15 x00).
Proof.
  apply (@compress_data_failure_is_silent Doubles.zlib_out_of_memory
           {| DataProcessor.db_ := Doubles.a_db |} "ab" []
           Z_MEM_ERROR [] 0).
  - reflexivity.
  - discriminate.
Defined.

(** ** Running the operations *)

Lemma is_set_true (p : ptr) : is_set p = true <-> p <> nullptr.
Proof.
  unfold is_set.
  destruct (N.eqb_spec p nullptr); simpl; split; congruence.
Qed.

Lemma bind_returned {A B} (m : M A) (k : A -> M B) (h h' : trace) (a : A) :
  m h = (Returned a, h') -> bind m k h = k a h'.
Proof. unfold bind. now intros ->. Qed.

Lemma bind_threw {A B} (m : M A) (k : A -> M B) (h h' : trace) (e : string) :
  m h = (Threw e, h') -> bind m k h = (Threw e, h').
Proof. unfold bind. now intros ->. Qed.

Lemma appended_app (h evs : trace) : appended h (h ++ evs) = evs.
Proof. unfold appended. apply drop_app_length. Qed.

Lemma appended_same (h : trace) : appended h h = [].
Proof. unfold appended. apply drop_all. Qed.

Lemma fmt_processing (data : string) :
  fmt_format ("Processing data: {}" +:+ LF) [ArgStr data]
  = Returned ("Processing data: " +:+ data +:+ LF).
Proof. reflexivity. Qed.

Lemma fmt_compressed (before after : N) :
  fmt_format ("Compressed {} bytes to {} bytes" +:+ LF)
             [ArgNum before; ArgNum after]
  = Returned ("Compressed " +:+ pretty before +:+ " bytes to "
                +:+ pretty after +:+ " bytes" +:+ LF).
Proof. reflexivity. Qed.

Lemma fmt_cannot_open (msg : string) :
  fmt_format ("Can't open database: {}" +:+ LF) [ArgStr msg]
  = Returned ("Can't open database: " +:+ msg +:+ LF).
Proof. reflexivity. Qed.

Lemma fmt_response (url : string) :
  fmt_format "Response from: {}" [ArgStr url]
  = Returned ("Response from: " +:+ url).
Proof.
  change (fmt_format "Response from: {}" [ArgStr url])
    with (Returned (A := string) ("Response from: " +:+ url +:+ "")).
  now rewrite append_empty_r.
Qed.

Lemma processor_ctor_run `{Sqlite} (h : trace) :
  let rc := (sqlite3_open h ":memory:").1 in
  let db := (sqlite3_open h ":memory:").2 in
  DataProcessor.ctor h
  = (Returned {| DataProcessor.db_ := db |},
     h ++ SqliteOpen ":memory:" rc db :: open_report h rc db).
Proof.
  unfold DataProcessor.ctor, open_report, bind, history, emit, lift_outcome, ret.
  destruct (sqlite3_open h ":memory:") as [rc db].
  cbn [fst snd DataProcessor.db_].
  destruct (rc =? 0)%Z; cbn [negb].
  - now rewrite <- !app_assoc.
  - rewrite fmt_cannot_open. now rewrite <- !app_assoc.
Qed.

Lemma processor_dtor_run (this : DataProcessor.t) (h : trace) :
  DataProcessor.dtor this h
  = (Returned tt,
     h ++ (if is_set (DataProcessor.db_ this)
           then [SqliteClose (DataProcessor.db_ this)] else [])).
Proof.
  unfold DataProcessor.dtor.
  destruct (is_set _); [reflexivity|].
  unfold ret. now rewrite app_nil_r.
Qed.

Lemma process_data_run `{Zlib} (this : DataProcessor.t) (data : string)
    (h : trace) :
  DataProcessor.process_data this data h
  = (Returned this,
     h ++ [Stdout ("Processing data: " +:+ data +:+ LF);
           Stdout ("Compressed "
                     +:+ pretty (N.of_nat (String.length data))
                     +:+ " bytes to "
                     +:+ pretty (N.of_nat (length (compressed_buffer data)))
                     +:+ " bytes" +:+ LF)]).
Proof.
  unfold DataProcessor.process_data.
  rewrite fmt_processing.
  unfold lift_outcome at 1.
  unfold bind at 1. unfold bind at 1. unfold emit at 1.
  erewrite bind_returned by apply compress_data_run.
  cbv beta iota zeta.
  rewrite fmt_compressed.
  unfold bind, lift_outcome, emit, ret.
  now rewrite <- !app_assoc.
Qed.

Lemma client_dtor_run (this : NetworkClient.t) (h : trace) :
  NetworkClient.dtor this h
  = (Returned tt,
     h ++ (if is_set (NetworkClient.curl_handle_ this)
           then [CurlEasyCleanup (NetworkClient.curl_handle_ this)] else [])).
Proof.
  unfold NetworkClient.dtor.
  destruct (is_set _); [reflexivity|].
  unfold ret. now rewrite app_nil_r.
Qed.

Lemma initialize_run `{Curl} (this : NetworkClient.t) (h : trace) :
  NetworkClient.initialize this h
  = (Returned {| NetworkClient.curl_handle_ := curl_easy_init h |},
     h ++ CurlEasyInit (curl_easy_init h)
          :: (if is_set (curl_easy_init h)
              then [Stdout ("CURL initialized successfully" +:+ LF)]
              else [])).
Proof.
  unfold NetworkClient.initialize, bind, history, emit, lift_outcome, ret.
  simpl.
  destruct (is_set (curl_easy_init h)); simpl; [|reflexivity].
  now rewrite <- !app_assoc.
Qed.

Lemma get_run (this : NetworkClient.t) (url : string) (h : trace) :
  NetworkClient.get this url h
  = (Returned ("Response from: " +:+ url, this), h).
Proof.
  unfold NetworkClient.get. now rewrite fmt_response.
Qed.

(** ** Traces of whole lifetimes *)

Lemma audit_app (r : resources) (a b : trace) :
  audit r (a ++ b) = match audit r a with
                     | Some r' => audit r' b
                     | None => None
                     end.
Proof.
  revert r. induction a as [|e a IH]; intros r; simpl; [reflexivity|].
  destruct (audit_event r e); [apply IH|reflexivity].
Qed.

Lemma audit_neutral (r : resources) (evs : trace) :
  forallb is_neutral evs = true -> audit r evs = Some r.
Proof.
  induction evs as [|e evs IH]; simpl; [reflexivity|].
  intros [He Hevs]%andb_prop.
  destruct e; try discriminate He; simpl; auto.
Qed.

Lemma sqlite_closes_neutral (evs : trace) :
  forallb is_neutral evs = true -> sqlite_closes evs = [].
Proof.
  induction evs as [|e evs IH]; simpl; [reflexivity|].
  intros [He Hevs]%andb_prop.
  destruct e; try discriminate He; simpl; auto.
Qed.

Lemma sqlite_closes_app (a b : trace) :
  sqlite_closes (a ++ b) = sqlite_closes a ++ sqlite_closes b.
Proof. apply omap_app. Qed.

Lemma open_report_neutral `{Sqlite} (h : trace) (rc : Z) (db : ptr) :
  forallb is_neutral (open_report h rc db) = true.
Proof. unfold open_report. now destruct (negb _). Qed.

Lemma processor_calls_run `{Zlib} (inputs : list string) :
  forall (this : DataProcessor.t) (h : trace),
  exists evs,
    processor_calls this inputs h = (Returned this, h ++ evs)
    /\ forallb is_neutral evs = true.
Proof.
  induction inputs as [|data inputs IH]; intros this h.
  - exists []. split; [|reflexivity].
    unfold processor_calls, ret. now rewrite app_nil_r.
  - simpl. erewrite bind_returned by apply process_data_run.
    destruct (IH this
                (h ++ [Stdout ("Processing data: " +:+ data +:+ LF);
                       Stdout ("Compressed "
                                 +:+ pretty (N.of_nat (String.length data))
                                 +:+ " bytes to "
                                 +:+ pretty (N.of_nat
                                               (length (compressed_buffer data)))
                                 +:+ " bytes" +:+ LF)]))
      as (evs & -> & Hevs).
    eexists. split; [now rewrite <- app_assoc|].
    exact Hevs.
Qed.

(** The events of a processor's lifetime, from what [sqlite3_open]
    answered. *)
Lemma processor_lifetime_run `{Zlib} `{Sqlite} (inputs : list string)
    (h : trace) :
  let rc := (sqlite3_open h ":memory:").1 in
  let db := (sqlite3_open h ":memory:").2 in
  exists evs,
    processor_lifetime inputs h
    = (Returned tt,
       h ++ SqliteOpen ":memory:" rc db :: evs
         ++ (if is_set db then [SqliteClose db] else []))
    /\ forallb is_neutral evs = true.
Proof.
  intros rc db.
  unfold processor_lifetime.
  erewrite bind_returned by apply processor_ctor_run.
  fold rc db.
  destruct (processor_calls_run inputs {| DataProcessor.db_ := db |}
              (h ++ SqliteOpen ":memory:" rc db :: open_report h rc db))
    as (evs & Hcalls & Hevs).
  erewrite bind_returned by exact Hcalls.
  rewrite processor_dtor_run.
  exists (open_report h rc db ++ evs).
  split.
  - cbn [DataProcessor.db_]. f_equal.
    rewrite <- !app_assoc. reflexivity.
  - rewrite forallb_app, open_report_neutral. exact Hevs.
Qed.



(** When the open succeeds and, as SQLite promises for [SQLITE_OK], stores
    a connection, the lifetime releases that connection once. *)
Lemma successful_open_is_released `{Zlib} `{Sqlite} (inputs : list string)
    (h : trace) :
  (forall t name,
      (sqlite3_open t name).1 = SQLITE_OK ->
      (sqlite3_open t name).2 <> nullptr) ->
  (sqlite3_open h ":memory:").1 = SQLITE_OK ->
  exists t',
    processor_lifetime inputs h = (Returned tt, t')
    /\ sqlite_closes (appended h t') = [(sqlite3_open h ":memory:").2].
Proof.
  intros Hcontract Hdb%Hcontract%is_set_true.
  destruct (processor_lifetime_run inputs h) as (evs & Hrun & Hevs).
  eexists. split; [exact Hrun|].
  rewrite appended_app, Hdb.
  change (SqliteOpen ":memory:" ?rc ?db :: ?l)
    with ([SqliteOpen ":memory:" rc db] ++ l).
  now rewrite !sqlite_closes_app, (sqlite_closes_neutral evs Hevs).
Qed.

(** ** The network client *)

(** C4: for every url, [get] returns ["Response from: " + url], a string
    that contains the url, and adds no event to the trace: nothing is sent
    or received.  For ["http://example.com"] the search finds the url in
    the returned string. *)
Theorem get_embeds_url (this : NetworkClient.t) (url : string) (h : trace) :
  NetworkClient.get this url h
  = (Returned ("Response from: " +:+ url, this), h)
  /\ contains ("Response from: " +:+ url) url
  /\ containsb ("Response from: " +:+ url) url = true
  /\ appended h (NetworkClient.get this url h).2 = []
  /\ (exists s,
        (NetworkClient.get this "http://example.com" h).1
        = Returned (s, this)
        /\ contains s "http://example.com"
        /\ containsb s "http://example.com" = true).
Proof.
  split; [apply get_run|].
  split; [apply contains_suffix|].
  split; [apply containsb_suffix|].
  split; [rewrite get_run; apply appended_same|].
  eexists. rewrite get_run.
  split; [reflexivity|].
  split; [apply contains_suffix|reflexivity].
Qed.

(** C9: [get] does not look at the handle.  Any two clients, whatever
    their handles and whatever happened before, return the same string for
    the same url and are left as they were; in particular a client gives
    the same answer before and after [initialize]. *)
Theorem get_ignores_handle `{Curl} (c1 c2 : NetworkClient.t) (url : string)
    (h1 h2 : trace) :
  (exists s,
      NetworkClient.get c1 url h1 = (Returned (s, c1), h1)
      /\ NetworkClient.get c2 url h2 = (Returned (s, c2), h2))
  /\ (exists s fresh initialized h',
        NetworkClient.ctor h1 = (Returned fresh, h1)
        /\ NetworkClient.initialize fresh h1 = (Returned initialized, h')
        /\ NetworkClient.get fresh url h1 = (Returned (s, fresh), h1)
        /\ NetworkClient.get initialized url h'
           = (Returned (s, initialized), h')).
Proof.
  split.
  - eexists. split; apply get_run.
  - eexists _, _, _, _.
    split; [reflexivity|].
    split; [apply initialize_run|].
    split; apply get_run.
Qed.

(** C6: the constructor leaves the handle null; [initialize] stores what
    [curl_easy_init] answers, returns normally either way, and writes the
    success line exactly when the handle is non-null, and nothing at all
    to the log when it is null. *)
Theorem initialize_logs_iff_handle `{Curl} (this : NetworkClient.t)
    (h : trace) :
  NetworkClient.ctor h
  = (Returned {| NetworkClient.curl_handle_ := nullptr |}, h)
  /\ exists t',
      NetworkClient.initialize this h
      = (Returned {| NetworkClient.curl_handle_ := curl_easy_init h |}, t')
      /\ appended h t'
         = CurlEasyInit (curl_easy_init h)
             :: (if is_set (curl_easy_init h)
                 then [Stdout ("CURL initialized successfully" +:+ LF)]
                 else [])
      /\ stdout_of (appended h t')
         = (if is_set (curl_easy_init h)
            then ["CURL initialized successfully" +:+ LF]
            else [])
      /\ (stdout_of (appended h t') <> [] <-> curl_easy_init h <> nullptr).
Proof.
  split; [reflexivity|].
  eexists. split; [apply initialize_run|].
  rewrite appended_app.
  split; [reflexivity|].
  rewrite <- is_set_true.
  destruct (is_set (curl_easy_init h)); simpl.
  - split; [reflexivity|]. split; [reflexivity|discriminate].
  - split; [reflexivity|]. split; [congruence|discriminate].
Qed.

(** ** The processor's operations *)

(** C10: [compress_data] and [process_data] hand the processor back with
    the [db_] it came with. *)
Theorem processor_state_preserved `{Zlib} (this : DataProcessor.t)
    (data : string) (h : trace) :
  (exists buf this',
      DataProcessor.compress_data this data h = (Returned (buf, this'), h)
      /\ DataProcessor.db_ this' = DataProcessor.db_ this)
  /\ (exists this' t',
        DataProcessor.process_data this data h = (Returned this', t')
        /\ DataProcessor.db_ this' = DataProcessor.db_ this).
Proof.
  split.
  - eexists _, _. split; [apply compress_data_run|reflexivity].
  - eexists _, _. split; [apply process_data_run|reflexivity].
Qed.

(** C5: [process_data] returns nothing but the object; what it adds to the
    trace is the line quoting the input and the line with the input length
    and the length of the buffer [compress_data] returns for that input,
    and nothing else.  For ["sample data"] the second line reads 11 and a
    length of at most [compressBound 11]; this last bound rests on zlib
    reporting on [Z_OK] no more than the capacity it was given. *)
Theorem process_data_effects `{Zlib} :
  (forall cap src result stored n,
      compress cap src = (result, stored, n) -> result = Z_OK -> n <= cap) ->
  forall (this : DataProcessor.t) (h : trace),
    (forall data : string,
        exists buf,
          DataProcessor.compress_data this data h = (Returned (buf, this), h)
          /\ DataProcessor.process_data this data h
             = (Returned this,
                h ++ [Stdout ("Processing data: " +:+ data +:+ LF);
                      Stdout ("Compressed "
                                +:+ pretty (N.of_nat (String.length data))
                                +:+ " bytes to "
                                +:+ pretty (N.of_nat (length buf))
                                +:+ " bytes" +:+ LF)]))
    /\ (exists k t',
          DataProcessor.process_data this "sample data" h = (Returned this, t')
          /\ appended h t'
             = [Stdout ("Processing data: sample data" +:+ LF);
                Stdout ("Compressed 11 bytes to " +:+ pretty k
                          +:+ " bytes" +:+ LF)]
          /\ k <= compressBound 11).
Proof.
  intros Hfit this h.
  split.
  { intros data. exists (compressed_buffer data).
    split; [apply compress_data_run|apply process_data_run]. }
  exists (N.of_nat (length (compressed_buffer "sample data"))). eexists.
  split; [apply process_data_run|].
  rewrite appended_app.
  split; [reflexivity|].
  rewrite length_compressed_buffer.
  change (N.of_nat (String.length "sample data")) with 11.
  destruct (compress _ _) as [[result stored] n] eqn:E.
  destruct (Z.eqb_spec result Z_OK) as [Hok|Hko].
  - exact (Hfit _ _ _ _ _ E Hok).
  - apply N.le_refl.
Qed.

(** The two log lines of [main]'s one call, on the stored-only encoder. *)
Lemma process_data_effects_witness :
  exists k t',
    @DataProcessor.process_data Doubles.zlib_stored_only
      {| DataProcessor.db_ := Doubles.a_db |} "sample data" []
    = (Returned {| DataProcessor.db_ := Doubles.a_db |}, t')
    /\ appended [] t'
       = [Stdout ("Processing data: sample data" +:+ LF);
          Stdout ("Compressed 11 bytes to " +:+ pretty k +:+ " bytes" +:+ LF)]
    /\ k <= 24.
Proof.
  exact (proj2 (@process_data_effects Doubles.zlib_stored_only
                  stored_compress_fits
                  {| DataProcessor.db_ := Doubles.a_db |} [])).
Defined.

(** ** Destruction *)

Lemma release_only_open (p : ptr) : ({[p]} ∪ ∅) ∖ {[p]} = (∅ : gset ptr).
Proof. now rewrite union_empty_r_L, difference_diag_L. Qed.

Lemma curl_cleanups_app (a b : trace) :
  curl_cleanups (a ++ b) = curl_cleanups a ++ curl_cleanups b.
Proof. apply omap_app. Qed.

(** Calls on a client release nothing, and keep the handle the client
    holds among the open ones. *)
Lemma client_calls_run `{Curl} (calls : list client_call) :
  forall (this : NetworkClient.t) (h : trace),
  exists this' evs,
    client_calls this calls h = (Returned this', h ++ evs)
    /\ curl_cleanups evs = []
    /\ forall r : resources,
        (is_set (NetworkClient.curl_handle_ this) = true ->
         NetworkClient.curl_handle_ this ∈ open_curls r) ->
        exists r',
          audit r evs = Some r'
          /\ (is_set (NetworkClient.curl_handle_ this') = true ->
              NetworkClient.curl_handle_ this' ∈ open_curls r').
Proof.
  induction calls as [|[|url] calls IH]; intros this h.
  - exists this, []. split; [unfold client_calls, ret; now rewrite app_nil_r|].
    split; [reflexivity|].
    intros r Hr. exists r. split; [reflexivity|exact Hr].
  - simpl. erewrite bind_returned by apply initialize_run.
    set (p := curl_easy_init h).
    set (evs1 := CurlEasyInit p
                   :: (if is_set p
                       then [Stdout ("CURL initialized successfully" +:+ LF)]
                       else [])).
    destruct (IH {| NetworkClient.curl_handle_ := p |} (h ++ evs1))
      as (this' & evs & -> & Hnone & Haudit).
    exists this', (evs1 ++ evs).
    split; [now rewrite <- app_assoc|].
    split.
    { rewrite curl_cleanups_app, Hnone. unfold evs1.
      now destruct (is_set p). }
    intros r _.
    set (r1 := if is_set p
               then {| open_dbs := open_dbs r;
                       open_curls := {[p]} ∪ open_curls r |}
               else r).
    destruct (Haudit r1) as (r' & Hr' & Hinv).
    { cbn [NetworkClient.curl_handle_]. unfold r1.
      intros ->. cbn [open_curls].
      now apply elem_of_union_l, elem_of_singleton. }
    exists r'. split; [|exact Hinv].
    rewrite audit_app.
    replace (audit r evs1) with (Some r1); [exact Hr'|].
    unfold evs1, r1. simpl. now destruct (is_set p).
  - simpl. erewrite bind_returned by apply get_run.
    cbn [snd]. apply IH.
Qed.

Lemma client_lifetime_run `{Curl} (calls : list client_call) (h : trace) :
  exists t',
    client_lifetime calls h = (Returned tt, t')
    /\ is_Some (audit no_resources (appended h t'))
    /\ (length (curl_cleanups (appended h t')) <= 1)%nat.
Proof.
  unfold client_lifetime.
  erewrite bind_returned by reflexivity.
  destruct (client_calls_run calls {| NetworkClient.curl_handle_ := nullptr |} h)
    as (this' & evs & Hrun & Hnone & Haudit).
  erewrite bind_returned by exact Hrun.
  rewrite client_dtor_run.
  eexists. split; [reflexivity|].
  rewrite <- app_assoc, appended_app.
  destruct (Haudit no_resources) as (r' & Hr' & Hinv); [discriminate|].
  rewrite audit_app, Hr', curl_cleanups_app, Hnone.
  destruct (is_set (NetworkClient.curl_handle_ this')) eqn:Hset.
  - simpl. destruct (decide _) as [|Hout]; [|now destruct Hout; apply Hinv].
    split; [eauto|lia].
  - simpl. split; [eauto|lia].
Qed.

Lemma client_gets_run `{Curl} (urls : list string) :
  forall (this : NetworkClient.t) (h : trace),
    client_calls this (map CallGet urls) h = (Returned this, h).
Proof.
  induction urls as [|url urls IH]; intros this h; [reflexivity|].
  simpl. erewrite bind_returned by apply get_run.
  apply IH.
Qed.

(** C7: destruction returns normally and releases nothing that is not
    open, for either component and whatever the libraries answered.  A
    processor's lifetime, with an open that succeeded or failed, releases
    the handle it was given at most once and leaves none open.  A client's
    lifetime under any sequence of calls releases at most one handle and
    only an open one; a client that was never initialised releases nothing,
    and [get] before [initialize] leaves no handle open. *)
Theorem destruction_is_safe {zlib : Zlib} {sqlite : Sqlite} {curl : Curl}
    (inputs : list string) (calls : list client_call)
    (urls : list string) (url : string) (h : trace) :
  (exists t',
      processor_lifetime inputs h = (Returned tt, t')
      /\ audit no_resources (appended h t') = Some no_resources
      /\ (length (sqlite_closes (appended h t')) <= 1)%nat)
  /\ (exists t',
        client_lifetime calls h = (Returned tt, t')
        /\ is_Some (audit no_resources (appended h t'))
        /\ (length (curl_cleanups (appended h t')) <= 1)%nat)
  /\ client_lifetime (map CallGet urls) h = (Returned tt, h)
  /\ (exists t',
        client_lifetime [CallGet url; CallInitialize] h = (Returned tt, t')
        /\ audit no_resources (appended h t') = Some no_resources).
Proof.
  split; [|split; [apply client_lifetime_run|split]].
  - destruct (processor_lifetime_run inputs h) as (evs & Hrun & Hevs).
    eexists. split; [exact Hrun|].
    rewrite appended_app.
    set (db := (sqlite3_open h ":memory:").2).
    change (SqliteOpen ":memory:" ?rc db :: ?l)
      with ([SqliteOpen ":memory:" rc db] ++ l).
    rewrite !sqlite_closes_app, (sqlite_closes_neutral evs Hevs).
    cbn [app audit audit_event sqlite_closes omap list_omap].
    rewrite audit_app.
    destruct (is_set db) eqn:Hset;
      rewrite (audit_neutral _ evs Hevs); simpl.
    + destruct (decide _) as [|Hout];
        [|now destruct Hout; apply elem_of_union_l, elem_of_singleton].
      split; [|lia].
      unfold no_resources. cbn [open_dbs open_curls].
      now rewrite release_only_open.
    + split; [reflexivity|lia].
  - unfold client_lifetime.
    erewrite bind_returned by reflexivity.
    erewrite bind_returned by apply client_gets_run.
    reflexivity.
  - unfold client_lifetime.
    erewrite bind_returned by reflexivity.
    assert (Hcalls :
              client_calls {| NetworkClient.curl_handle_ := nullptr |}
                [CallGet url; CallInitialize] h
              = (Returned {| NetworkClient.curl_handle_ := curl_easy_init h |},
                 h ++ CurlEasyInit (curl_easy_init h)
                   :: (if is_set (curl_easy_init h)
                       then [Stdout ("CURL initialized successfully" +:+ LF)]
                       else []))).
    { simpl. erewrite bind_returned by apply get_run.
      cbn [snd]. erewrite bind_returned by apply initialize_run.
      reflexivity. }
    erewrite bind_returned by exact Hcalls.
    rewrite client_dtor_run.
    eexists. split; [reflexivity|].
    rewrite <- app_assoc, appended_app.
    cbn [NetworkClient.curl_handle_].
    destruct (is_set (curl_easy_init h)) eqn:Hset; simpl; rewrite Hset.
    + destruct (decide _) as [|Hout];
        [|now destruct Hout; apply elem_of_union_l, elem_of_singleton].
      unfold no_resources. cbn [open_dbs open_curls].
      now rewrite release_only_open.
    + reflexivity.
Qed.

(** ** The entry point *)

Lemma lift_returned {A} (a : A) (h : trace) :
  lift_outcome (Returned a) h = (Returned a, h).
Proof. reflexivity. Qed.

Lemma emit_run (e : event) (h : trace) : emit e h = (Returned tt, h ++ [e]).
Proof. reflexivity. Qed.

Lemma history_run (h : trace) : history h = (Returned h, h).
Proof. reflexivity. Qed.

(** ** Runs against fixed library behaviours *)

(** The stored-only encoder gives, byte for byte, the stream zlib writes
    at compression level 0. *)
Example stored_stream_of_sample_data :
  Doubles.zlib_stored (list_byte_of_string "sample data")
  = [x78; x01; x01; x0b; x00; xf4; xff;
     x73; x61; x6d; x70; x6c; x65; x20; x64; x61; x74; x61;
     x1a; x09; x04; x3d].
Proof. vm_compute. reflexivity. Qed.

Example stored_stream_of_nothing :
  Doubles.zlib_stored []
  = [x78; x01; x01; x00; x00; xff; xff; x00; x00; x00; x01].
Proof. vm_compute. reflexivity. Qed.

Example main_when_all_is_well :
  @main Doubles.zlib_stored_only Doubles.sqlite_opens Doubles.curl_inits
        Doubles.cwd_known []
  = (Returned 0%Z,
     [Stdout ("SBOM Test Application v1.0.0" +:+ LF);
      CurlGlobalInit CURL_GLOBAL_DEFAULT;
      SslLoadErrorStrings;
      SslLibraryInit;
      BoostCurrentPath;
      Stdout ("Current directory: /tmp" +:+ LF);
      CurlEasyInit Doubles.a_curl;
      Stdout ("CURL initialized successfully" +:+ LF);
      SqliteOpen ":memory:" SQLITE_OK Doubles.a_db;
      Stdout ("SQLite database opened successfully" +:+ LF);
      Stdout ("Processing data: sample data" +:+ LF);
      Stdout ("Compressed 11 bytes to 22 bytes" +:+ LF);
      CurlGlobalCleanup;
      SqliteClose Doubles.a_db;
      CurlEasyCleanup Doubles.a_curl]).
Proof. vm_compute. reflexivity. Qed.

Example main_when_the_libraries_fail :
  @main Doubles.zlib_out_of_memory Doubles.sqlite_cannot_open
        Doubles.curl_fails Doubles.cwd_known []
  = (Returned 0%Z,
     [Stdout ("SBOM Test Application v1.0.0" +:+ LF);
      CurlGlobalInit CURL_GLOBAL_DEFAULT;
      SslLoadErrorStrings;
      SslLibraryInit;
      BoostCurrentPath;
      Stdout ("Current directory: /tmp" +:+ LF);
      CurlEasyInit nullptr;
      SqliteOpen ":memory:" SQLITE_CANTOPEN Doubles.a_db;
      SqliteErrmsg Doubles.a_db;
      Stdout ("Can't open database: unable to open database file" +:+ LF);
      Stdout ("Processing data: sample data" +:+ LF);
      Stdout ("Compressed 11 bytes to 24 bytes" +:+ LF);
      CurlGlobalCleanup;
      SqliteClose Doubles.a_db]).
Proof. vm_compute. reflexivity. Qed.

Example main_when_memory_runs_out_in_sqlite :
  (@main Doubles.zlib_stored_only Doubles.sqlite_out_of_memory
         Doubles.curl_inits Doubles.cwd_known []).1 = Returned 0%Z
  /\ sqlite_closes
       (@main Doubles.zlib_stored_only Doubles.sqlite_out_of_memory
              Doubles.curl_inits Doubles.cwd_known []).2 = [].
Proof. split; vm_compute; reflexivity. Qed.

Example main_without_a_current_directory :
  @main Doubles.zlib_stored_only Doubles.sqlite_opens Doubles.curl_inits
        Doubles.cwd_gone []
  = (Threw "boost::filesystem::current_path: No such file or directory",
     startup ++ [BoostCurrentPath]).
Proof. vm_compute. reflexivity. Qed.

(** * Further properties of the code *)

(** ** The constructor of the processor *)

(** The constructor returns normally whatever [sqlite3_open] answers and
    keeps the pointer it stored.  It writes one line: the success line
    when the result code is 0, and otherwise the message [sqlite3_errmsg]
    gives for that pointer, which it asks for only then.  It never closes
    what a failed open left behind. *)
Theorem ctor_reports_open `{Sqlite} (h : trace) :
  let rc := (sqlite3_open h ":memory:").1 in
  let db := (sqlite3_open h ":memory:").2 in
  exists t',
    DataProcessor.ctor h = (Returned {| DataProcessor.db_ := db |}, t')
    /\ stdout_of (appended h t')
       = [if (rc =? 0)%Z
          then "SQLite database opened successfully" +:+ LF
          else "Can't open database: "
                 +:+ sqlite3_errmsg (h ++ [SqliteOpen ":memory:" rc db]) db
                 +:+ LF]
    /\ sqlite_errmsgs (appended h t') = (if (rc =? 0)%Z then [] else [db])
    /\ sqlite_closes (appended h t') = [].
Proof.
  intros rc db.
  eexists. split; [apply processor_ctor_run|].
  rewrite appended_app. fold rc db.
  unfold open_report.
  destruct (rc =? 0)%Z; repeat split; reflexivity.
Qed.

(** ** The buffer on success *)

Lemma store_at_front_fits (w v : list byte) :
  (length w <= length v)%nat ->
  store_at_front w v = w ++ drop (length w) v.
Proof.
  intros Hlen. unfold store_at_front.
  apply take_ge. rewrite length_app, length_drop. lia.
Qed.

(** When [compress] answers [Z_OK], reports as many bytes as it stored and
    stayed within the capacity, [compress_data] returns exactly the bytes
    [compress] stored: no padding is left and nothing is cut off. *)
Theorem compress_data_returns_stream `{Zlib} (this : DataProcessor.t)
    (data : string) (h : trace) (stored : list byte) (n : N) :
  compress (compressBound (N.of_nat (String.length data)))
           (list_byte_of_string data) = (Z_OK, stored, n) ->
  N.of_nat (length stored) = n ->
  n <= compressBound (N.of_nat (String.length data)) ->
  DataProcessor.compress_data this data h = (Returned (stored, this), h).
Proof.
  intros E Hn Hcap.
  rewrite compress_data_run. do 2 f_equal.
  unfold compressed_buffer. cbv zeta. rewrite E.
  change (Z_OK =? Z_OK)%Z with true. cbv iota.
  assert (Hlen : N.to_nat n = length stored) by lia.
  rewrite store_at_front_fits by (rewrite length_replicate; lia).
  unfold resize.
  rewrite Hlen, take_app_length, length_app, length_drop, length_replicate.
  replace (length stored
           - (length stored
              + (N.to_nat (compressBound (N.of_nat (String.length data)))
                 - length stored)))%nat with 0%nat by lia.
  cbn [replicate]. now rewrite app_nil_r.
Qed.

(** On ["sample data"] the stored-only encoder's 22 bytes come back as
    they are. *)
Lemma compress_data_returns_stream_witness :
  @DataProcessor.compress_data Doubles.zlib_stored_only
    {| DataProcessor.db_ := Doubles.a_db |} "sample data" []
  = (Returned (Doubles.zlib_stored (list_byte_of_string "sample data"),
               {| DataProcessor.db_ := Doubles.a_db |}), []).
Proof.
  apply (@compress_data_returns_stream Doubles.zlib_stored_only
           {| DataProcessor.db_ := Doubles.a_db |} "sample data" []
           (Doubles.zlib_stored (list_byte_of_string "sample data")) 22).
  - vm_compute. reflexivity.
  - vm_compute. reflexivity.
  - vm_compute. discriminate.
Defined.

(** ** What the log says after a failed compression *)

(** When [compress] fails, [process_data] still returns and its second
    line gives [compressBound] of the input length as the compressed
    size: the log of a failed compression reads like that of a successful
    one that filled the buffer. *)
Theorem process_data_logs_bound_on_failure `{Zlib} (this : DataProcessor.t)
    (data : string) (h : trace) (result : Z) (stored : list byte) (n : N) :
  compress (compressBound (N.of_nat (String.length data)))
           (list_byte_of_string data) = (result, stored, n) ->
  result <> Z_OK ->
  DataProcessor.process_data this data h
  = (Returned this,
     h ++ [Stdout ("Processing data: " +:+ data +:+ LF);
           Stdout ("Compressed "
                     +:+ pretty (N.of_nat (String.length data))
                     +:+ " bytes to "
                     +:+ pretty (compressBound
                                   (N.of_nat (String.length data)))
                     +:+ " bytes" +:+ LF)]).
Proof.
  intros E Hko.
  rewrite process_data_run.
  pose proof (length_compressed_buffer data) as Hlen. cbv zeta in Hlen.
  rewrite E in Hlen.
  destruct (Z.eqb_spec result Z_OK) as [Hok|_]; [contradiction|].
  now rewrite Hlen.
Qed.

(** With a [compress] that cannot allocate, the one call of [main] logs
    24 bytes for its 11. *)
Lemma process_data_logs_bound_on_failure_witness :
  @DataProcessor.process_data Doubles.zlib_out_of_memory
    {| DataProcessor.db_ := Doubles.a_db |} "sample data" []
  = (Returned {| DataProcessor.db_ := Doubles.a_db |},
     [Stdout ("Processing data: sample data" +:+ LF);
      Stdout ("Compressed 11 bytes to 24 bytes" +:+ LF)]).
Proof.
  apply (@process_data_logs_bound_on_failure Doubles.zlib_out_of_memory
           {| DataProcessor.db_ := Doubles.a_db |} "sample data" []
           Z_MEM_ERROR [] 0).
  - reflexivity.
  - discriminate.
Defined.

(** ** Repeated calls on one processor *)

(** Any number of [process_data] calls, one after the other, write the two
    lines of each call in the order of the calls and nothing else: no call
    reaches SQLite or libcurl, and the processor comes back unchanged. *)
Theorem process_data_calls_only_log `{Zlib} (inputs : list string)
    (this : DataProcessor.t) (h : trace) :
  processor_calls this inputs h
  = (Returned this, h ++ flat_map process_lines inputs).
Proof.
  revert h. induction inputs as [|data inputs IH]; intros h.
  - unfold processor_calls, ret. simpl. now rewrite app_nil_r.
  - simpl. erewrite bind_returned by apply process_data_run.
    rewrite IH. now rewrite <- app_assoc.
Qed.

(** ** Sequences of calls on one client *)

Lemma audit_close_db (r : resources) (db : ptr) :
  db ∈ open_dbs r ->
  audit_event r (SqliteClose db)
  = Some {| open_dbs := open_dbs r ∖ {[db]}; open_curls := open_curls r |}.
Proof.
  intros Hopen. unfold audit_event.
  destruct (decide _); [reflexivity|contradiction].
Qed.

Lemma audit_cleanup_curl (r : resources) (p : ptr) :
  p ∈ open_curls r ->
  audit_event r (CurlEasyCleanup p)
  = Some {| open_dbs := open_dbs r; open_curls := open_curls r ∖ {[p]} |}.
Proof.
  intros Hopen. unfold audit_event.
  destruct (decide _); [reflexivity|contradiction].
Qed.

Lemma curl_inits_app (a b : trace) :
  curl_inits (a ++ b) = curl_inits a ++ curl_inits b.
Proof. apply omap_app. Qed.

Lemma curl_obtained_app (a b : trace) :
  curl_obtained (a ++ b) = curl_obtained a ∪ curl_obtained b.
Proof.
  unfold curl_obtained.
  now rewrite curl_inits_app, filter_app, list_to_set_app_L.
Qed.

Lemma curl_inits_initialize `{Curl} (h : trace) :
  curl_inits (initialize_events h) = [curl_easy_init h].
Proof. unfold initialize_events. now destruct (is_set _). Qed.

Lemma curl_cleanups_initialize `{Curl} (h : trace) :
  curl_cleanups (initialize_events h) = [].
Proof. unfold initialize_events. now destruct (is_set _). Qed.

Lemma curl_obtained_initialize `{Curl} (h : trace) :
  curl_obtained (initialize_events h)
  = (if is_set (curl_easy_init h) then {[curl_easy_init h]} else ∅).
Proof.
  unfold curl_obtained. rewrite curl_inits_initialize.
  destruct (is_set (curl_easy_init h)) eqn:Hset.
  - apply is_set_true in Hset.
    rewrite filter_cons_True by exact Hset.
    rewrite filter_nil. simpl. apply union_empty_r_L.
  - rewrite filter_cons_False; [reflexivity|].
    intros Hne%is_set_true. congruence.
Qed.

Lemma audit_initialize `{Curl} (r : resources) (h : trace) :
  audit r (initialize_events h)
  = Some {| open_dbs := open_dbs r;
            open_curls := curl_obtained (initialize_events h)
                            ∪ open_curls r |}.
Proof.
  rewrite curl_obtained_initialize. unfold initialize_events.
  destruct (is_set (curl_easy_init h)) eqn:Hset; simpl; rewrite Hset.
  - reflexivity.
  - rewrite union_empty_l_L. now destruct r.
Qed.

(** A sequence of calls as a whole: [get] adds nothing to the trace,
    each [initialize] asks [curl_easy_init] once, and no call releases a
    handle. *)
Lemma client_calls_trace `{Curl} (calls : list client_call) :
  forall (this : NetworkClient.t) (h : trace),
  exists evs,
    client_calls this calls h
    = (Returned {| NetworkClient.curl_handle_ :=
                     handle_after (NetworkClient.curl_handle_ this) evs |},
       h ++ evs)
    /\ length (curl_inits evs) = count_initialize calls
    /\ curl_cleanups evs = []
    /\ forall r : resources,
        audit r evs
        = Some {| open_dbs := open_dbs r;
                  open_curls := curl_obtained evs ∪ open_curls r |}.
Proof.
  induction calls as [|[|url] calls IH]; intros this h.
  - exists []. split; [|split; [reflexivity|split; [reflexivity|]]].
    + unfold client_calls, ret. rewrite app_nil_r. now destruct this.
    + intros r. simpl. unfold curl_obtained. simpl.
      rewrite union_empty_l_L. now destruct r.
  - simpl. erewrite bind_returned by apply initialize_run.
    fold (initialize_events h).
    destruct (IH {| NetworkClient.curl_handle_ := curl_easy_init h |}
                (h ++ initialize_events h))
      as (evs & -> & Hcount & Hnone & Haudit).
    exists (initialize_events h ++ evs).
    split; [|split; [|split]].
    + rewrite <- app_assoc. do 3 f_equal.
      unfold handle_after.
      rewrite curl_inits_app, curl_inits_initialize.
      cbn [NetworkClient.curl_handle_ app].
      rewrite last_cons. now destruct (last (curl_inits evs)).
    + rewrite curl_inits_app, curl_inits_initialize. simpl.
      now rewrite Hcount.
    + now rewrite curl_cleanups_app, curl_cleanups_initialize, Hnone.
    + intros r.
      rewrite audit_app, audit_initialize, Haudit, curl_obtained_app.
      cbn [open_dbs open_curls].
      now rewrite (union_comm_L (curl_obtained (initialize_events h))
                     (curl_obtained evs)), union_assoc_L.
  - simpl. erewrite bind_returned by apply get_run.
    cbn [snd]. apply IH.
Qed.

Lemma handle_after_obtained (evs : trace) :
  handle_after nullptr evs <> nullptr ->
  handle_after nullptr evs ∈ curl_obtained evs.
Proof.
  unfold handle_after, curl_obtained.
  destruct (last (curl_inits evs)) as [p|] eqn:Hlast; simpl;
    [|congruence].
  intros Hp.
  apply elem_of_list_to_set, list_elem_of_filter.
  split; [exact Hp|].
  eapply last_Some_elem_of, Hlast.
Qed.

(** Over a client's lifetime under any sequence of calls, [curl_easy_init]
    is asked once per [initialize]; the destructor releases the answer of
    the last [initialize] if it is non-null, and nothing else.  Neither
    [initialize] nor the destructor releases a handle that a later
    [initialize] replaced: every other non-null handle that was handed out
    is still open when the client is gone. *)
Theorem client_lifetime_releases_last `{Curl} (calls : list client_call)
    (h : trace) :
  exists t',
    client_lifetime calls h = (Returned tt, t')
    /\ length (curl_inits (appended h t')) = count_initialize calls
    /\ curl_cleanups (appended h t')
       = (if is_set (handle_after nullptr (appended h t'))
          then [handle_after nullptr (appended h t')] else [])
    /\ exists r,
        audit no_resources (appended h t') = Some r
        /\ open_dbs r = ∅
        /\ forall x : ptr,
            x ∈ open_curls r
            <-> x ∈ curl_inits (appended h t')
                /\ x <> nullptr
                /\ x <> handle_after nullptr (appended h t').
Proof.
  unfold client_lifetime.
  erewrite bind_returned by reflexivity.
  destruct (client_calls_trace calls
              {| NetworkClient.curl_handle_ := nullptr |} h)
    as (evs & Hrun & Hcount & Hnone & Haudit).
  cbn [NetworkClient.curl_handle_] in Hrun.
  erewrite bind_returned by exact Hrun.
  rewrite client_dtor_run. cbn [NetworkClient.curl_handle_].
  eexists. split; [reflexivity|].
  rewrite <- app_assoc, appended_app.
  set (p := handle_after nullptr evs).
  assert (Hinits : curl_inits
                     (evs ++ (if is_set p then [CurlEasyCleanup p] else []))
                   = curl_inits evs).
  { rewrite curl_inits_app.
    destruct (is_set p); simpl; now rewrite app_nil_r. }
  assert (Hafter : handle_after nullptr
                     (evs ++ (if is_set p then [CurlEasyCleanup p] else []))
                   = p).
  { unfold handle_after. now rewrite Hinits. }
  rewrite Hafter, Hinits, curl_cleanups_app, Hnone.
  rewrite audit_app, Haudit.
  cbn [open_dbs open_curls no_resources].
  rewrite union_empty_r_L.
  split; [exact Hcount|].
  assert (Hmem : forall x, x ∈ curl_obtained evs
                           <-> x ∈ curl_inits evs /\ x <> nullptr).
  { intros x. unfold curl_obtained.
    rewrite elem_of_list_to_set, list_elem_of_filter. tauto. }
  destruct (is_set p) eqn:Hset; cbn [app audit].
  - split; [reflexivity|].
    rewrite audit_cleanup_curl
      by (cbn [open_curls]; apply handle_after_obtained, is_set_true, Hset).
    eexists. split; [reflexivity|]. split; [reflexivity|].
    intros x. cbn [open_curls].
    rewrite elem_of_difference, elem_of_singleton, Hmem. tauto.
  - split; [reflexivity|].
    eexists. split; [reflexivity|]. split; [reflexivity|].
    intros x. cbn [open_curls]. rewrite Hmem.
    split; [|tauto].
    intros [Hin Hx]. repeat split; [exact Hin|exact Hx|].
    intros ->. apply is_set_true in Hx. congruence.
Qed.

(** Two [initialize] calls against a libcurl that hands out a new handle
    each time: the second handle is released, the first is left open. *)
Lemma client_lifetime_releases_last_witness :
  exists t' r,
    @client_lifetime curl_fresh [CallInitialize; CallInitialize] []
    = (Returned tt, t')
    /\ curl_cleanups (appended [] t') = [Doubles.a_curl + 2]
    /\ audit no_resources (appended [] t') = Some r
    /\ Doubles.a_curl ∈ open_curls r.
Proof.
  destruct (@client_lifetime_releases_last curl_fresh
              [CallInitialize; CallInitialize] [])
    as (t' & Hrun & _ & Hcleanups & r & Haudit & _ & Hopen).
  exists t', r.
  injection Hrun as <-.
  split; [reflexivity|]. split; [exact Hcleanups|]. split; [exact Haudit|].
  apply Hopen. split; [|split; [discriminate|discriminate]].
  apply list_elem_of_In. left. reflexivity.
Defined.

(** ** The whole run *)

Lemma main_events_run `{Zlib} `{Sqlite} `{Curl} `{BoostFilesystem}
    (h : trace) :
  match current_path (h ++ startup) with
  | Returned dir => main h = (Returned 0%Z, h ++ main_events h dir)
  | Threw e => main h = (Threw e, h ++ startup ++ [BoostCurrentPath])
  end.
Proof.
  unfold main.
  change (fmt_format ("SBOM Test Application v{}.{}.{}" +:+ LF)
            [ArgNum 1; ArgNum 0; ArgNum 0])
    with (Returned (A := string) ("SBOM Test Application v1.0.0" +:+ LF)).
  erewrite bind_returned by apply lift_returned.
  do 4 (erewrite bind_returned by apply emit_run).
  erewrite bind_returned by apply history_run.
  erewrite bind_returned by apply emit_run.
  rewrite <- !app_assoc.
  change ([Stdout ("SBOM Test Application v1.0.0" +:+ LF)] ++
          [CurlGlobalInit CURL_GLOBAL_DEFAULT] ++
          [SslLoadErrorStrings] ++ [SslLibraryInit])
    with startup.
  destruct (current_path (h ++ startup)) as [dir|e].
  - erewrite bind_returned by apply lift_returned.
    erewrite bind_returned by apply emit_run.
    erewrite bind_returned by reflexivity.
    erewrite bind_returned by apply initialize_run.
    erewrite bind_returned by apply processor_ctor_run.
    erewrite bind_returned by apply process_data_run.
    erewrite bind_returned by apply emit_run.
    erewrite bind_returned by apply processor_dtor_run.
    erewrite bind_returned by apply client_dtor_run.
    unfold ret, main_events. cbv zeta.
    rewrite <- !app_assoc.
    reflexivity.
  - erewrite bind_threw by reflexivity.
    reflexivity.
Qed.

Lemma main_events_read_nothing `{Zlib} `{Sqlite} `{Curl} (h : trace)
    (dir : string) :
  Forall (fun e => reads_process_input e = false) (main_events h dir).
Proof.
  unfold main_events, initialize_events, open_report, process_lines.
  cbv zeta.
  repeat first
    [ apply Forall_app; split
    | apply Forall_cons; split
    | apply Forall_nil
    | reflexivity
    | match goal with
      | |- Forall _ (if ?b then _ else _) => destruct b
      end ].
Qed.

(** C8: whatever the libraries answer, no step of [main] reads an element
    of [argv] or an environment variable.  A run that returns from [main]
    returns 0, and the run does return whenever [current_path] does; the
    one way out of [main] other than [return 0] is the exception
    [current_path] throws, with which no exit code is returned. *)
Theorem main_exit_code `{Zlib} `{Sqlite} `{Curl} `{BoostFilesystem}
    (h : trace) :
  Forall (fun e => reads_process_input e = false) (appended h (main h).2)
  /\ match (main h).1 with
     | Returned code => code = 0%Z
     | Threw e => current_path (h ++ startup) = Threw e
     end
  /\ match current_path (h ++ startup) with
     | Returned _ => (main h).1 = Returned 0%Z
     | Threw e => (main h).1 = Threw e
     end.
Proof.
  pose proof (main_events_run h) as Hrun.
  destruct (current_path (h ++ startup)) as [dir|e];
    rewrite Hrun; cbn [fst snd]; rewrite appended_app.
  - split; [apply main_events_read_nothing|]. split; reflexivity.
  - split; [repeat constructor|]. split; reflexivity.
Qed.

(** Once [current_path] has answered, [main] runs to its [return 0], and
    what it did is, in this order: the start-up, the line with the
    directory, [initialize] on a new client, the construction of the
    processor, its one call on ["sample data"], [curl_global_cleanup], and
    then the two destructors, the processor's first. *)
Theorem main_trace `{Zlib} `{Sqlite} `{Curl} `{BoostFilesystem}
    (h : trace) (dir : string) :
  current_path (h ++ startup) = Returned dir ->
  main h = (Returned 0%Z, h ++ main_events h dir).
Proof.
  intros Hdir.
  pose proof (main_events_run h) as Hrun.
  now rewrite Hdir in Hrun.
Qed.

(** The whole run of the example: 22 bytes for the 11 of
    ["sample data"], and both handles released at the end. *)
Lemma main_trace_witness :
  @main Doubles.zlib_stored_only Doubles.sqlite_opens Doubles.curl_inits
        Doubles.cwd_known []
  = (Returned 0%Z,
     [] ++ @main_events Doubles.zlib_stored_only Doubles.sqlite_opens
             Doubles.curl_inits [] "/tmp").
Proof.
  apply (@main_trace Doubles.zlib_stored_only Doubles.sqlite_opens
           Doubles.curl_inits Doubles.cwd_known [] "/tmp").
  reflexivity.
Defined.

(** When [current_path] throws, [main] ends there, by that exception:
    the banner is out, [curl_global_init] and the two OpenSSL calls are
    made, no client and no processor exists yet, and
    [curl_global_cleanup] is never reached. *)
Theorem main_stops_at_current_path `{Zlib} `{Sqlite} `{Curl}
    `{BoostFilesystem} (h : trace) (e : string) :
  current_path (h ++ startup) = Threw e ->
  main h = (Threw e, h ++ startup ++ [BoostCurrentPath])
  /\ In (CurlGlobalInit CURL_GLOBAL_DEFAULT) (appended h (main h).2)
  /\ ~ In CurlGlobalCleanup (appended h (main h).2)
  /\ curl_inits (appended h (main h).2) = []
  /\ stdout_of (appended h (main h).2)
     = ["SBOM Test Application v1.0.0" +:+ LF].
Proof.
  intros He.
  pose proof (main_events_run h) as Hrun. rewrite He in Hrun.
  rewrite Hrun. cbn [snd]. rewrite appended_app.
  split; [reflexivity|].
  split; [simpl; auto|].
  split; [|split; reflexivity].
  simpl. intros Hin.
  repeat destruct Hin as [Hin|Hin]; try discriminate Hin; exact Hin.
Qed.

Lemma main_stops_at_current_path_witness :
  @main Doubles.zlib_stored_only Doubles.sqlite_opens Doubles.curl_inits
        Doubles.cwd_gone []
  = (Threw "boost::filesystem::current_path: No such file or directory",
     [] ++ startup ++ [BoostCurrentPath]).
Proof.
  apply (@main_stops_at_current_path Doubles.zlib_stored_only
           Doubles.sqlite_opens Doubles.curl_inits Doubles.cwd_gone []).
  reflexivity.
Defined.

Lemma audit_greeting (r : resources) (dir : string) :
  audit r (startup ++ [BoostCurrentPath;
                       Stdout ("Current directory: " +:+ dir +:+ LF)])
  = Some r.
Proof. reflexivity. Qed.

Lemma process_lines_neutral `{Zlib} (data : string) :
  forallb is_neutral (process_lines data) = true.
Proof. reflexivity. Qed.

(** However the libraries answer, [main] ends with no handle open and
    has released none that was not open: the client's curl handle and the
    processor's connection are each released once if they were obtained,
    and on the way out by exception nothing had been obtained. *)
Theorem main_releases_what_it_obtains `{Zlib} `{Sqlite} `{Curl}
    `{BoostFilesystem} (h : trace) :
  audit no_resources (appended h (main h).2) = Some no_resources.
Proof.
  pose proof (main_events_run h) as Hrun.
  destruct (current_path (h ++ startup)) as [dir|e].
  - rewrite Hrun. cbn [snd]. rewrite appended_app.
    unfold main_events. cbv zeta.
    set (greeting := startup ++ [BoostCurrentPath;
                                 Stdout ("Current directory: "
                                           +:+ dir +:+ LF)]).
    set (h1 := h ++ greeting).
    set (h2 := h1 ++ initialize_events h1).
    set (rc := (sqlite3_open h2 ":memory:").1).
    set (db := (sqlite3_open h2 ":memory:").2).
    rewrite audit_app. unfold greeting at 1. rewrite audit_greeting.
    rewrite audit_app, audit_initialize, curl_obtained_initialize.
    cbn [audit audit_event app no_resources open_dbs open_curls].
    rewrite !union_empty_r_L.
    rewrite audit_app, (audit_neutral _ _ (open_report_neutral h2 rc db)).
    rewrite audit_app, (audit_neutral _ _ (process_lines_neutral _)).
    cbn [audit audit_event app].
    destruct (is_set db), (is_set (curl_easy_init h1)); cbn [app audit].
    + rewrite audit_close_db
        by (cbn [open_dbs]; now apply elem_of_singleton).
      rewrite audit_cleanup_curl
        by (cbn [open_curls]; now apply elem_of_singleton).
      cbn [open_dbs open_curls]. now rewrite !difference_diag_L.
    + rewrite audit_close_db
        by (cbn [open_dbs]; now apply elem_of_singleton).
      cbn [open_dbs open_curls]. now rewrite difference_diag_L.
    + rewrite audit_cleanup_curl
        by (cbn [open_curls]; now apply elem_of_singleton).
      cbn [open_dbs open_curls]. now rewrite difference_diag_L.
    + reflexivity.
  - rewrite Hrun. cbn [snd]. rewrite appended_app. reflexivity.
Qed.

(** When the client obtained a handle, [main] passes it to
    [curl_easy_cleanup] as its very last act, after it has called
    [curl_global_cleanup]: the client is destroyed on leaving [main],
    which is after the explicit global cleanup. *)
Theorem main_cleans_up_client_after_global `{Zlib} `{Sqlite} `{Curl}
    `{BoostFilesystem} (h : trace) (dir : string) :
  current_path (h ++ startup) = Returned dir ->
  curl_easy_init
    (h ++ startup ++ [BoostCurrentPath;
                      Stdout ("Current directory: " +:+ dir +:+ LF)])
  <> nullptr ->
  exists before between,
    appended h (main h).2
    = before ++ [CurlGlobalCleanup] ++ between
        ++ [CurlEasyCleanup
              (curl_easy_init
                 (h ++ startup
                    ++ [BoostCurrentPath;
                        Stdout ("Current directory: " +:+ dir +:+ LF)]))]
    /\ curl_cleanups before = []
    /\ curl_cleanups between = [].
Proof.
  intros Hdir Hset%is_set_true.
  pose proof (main_events_run h) as Hrun. rewrite Hdir in Hrun.
  rewrite Hrun. cbn [snd]. rewrite appended_app.
  unfold main_events. cbv zeta.
  rewrite Hset.
  set (greeting := startup ++ [BoostCurrentPath;
                               Stdout ("Current directory: "
                                         +:+ dir +:+ LF)]).
  set (h1 := h ++ greeting).
  set (h2 := h1 ++ initialize_events h1).
  set (rc := (sqlite3_open h2 ":memory:").1).
  set (db := (sqlite3_open h2 ":memory:").2).
  exists (greeting ++ initialize_events h1
            ++ SqliteOpen ":memory:" rc db :: open_report h2 rc db
            ++ process_lines "sample data"),
    (if is_set db then [SqliteClose db] else []).
  split.
  { rewrite <- !app_assoc. cbn [app]. now rewrite <- !app_assoc. }
  split.
  - rewrite !curl_cleanups_app, curl_cleanups_initialize.
    change (SqliteOpen ":memory:" rc db :: ?l)
      with ([SqliteOpen ":memory:" rc db] ++ l).
    rewrite !curl_cleanups_app.
    unfold open_report. now destruct (negb _).
  - now destruct (is_set db).
Qed.

Lemma main_cleans_up_client_after_global_witness :
  exists before between,
    appended [] (@main Doubles.zlib_stored_only Doubles.sqlite_opens
                   Doubles.curl_inits Doubles.cwd_known []).2
    = before ++ [CurlGlobalCleanup] ++ between
        ++ [CurlEasyCleanup Doubles.a_curl]
    /\ curl_cleanups before = []
    /\ curl_cleanups between = [].
Proof.
  apply (@main_cleans_up_client_after_global Doubles.zlib_stored_only
           Doubles.sqlite_opens Doubles.curl_inits Doubles.cwd_known
           [] "/tmp").
  - reflexivity.
  - vm_compute. discriminate.
Defined.
